(** * one2track: polling coordinator and per-device reconciliation

    A shallow embedding of [custom_components/one2track/device_tracker.py]
    (and the constants of [common.py]).  Python objects become records,
    methods become computations in a small state/exception/logging monad,
    and the external collaborators (the API client's [update()], the host's
    zone lookup, the [float] builtin, the wall clock) are inputs of the
    methods that call them. *)

From Stdlib Require Import String Ascii List ZArith Bool Lia.
From Stdlib Require Import Permutation.
Import ListNotations.

Local Open Scope string_scope.
Local Open Scope Z_scope.

(** ** common.py *)

Module Common.

Definition VERSION : string := "1.1.2".
Definition DOMAIN : string := "one2track".
Definition DEFAULT_PREFIX : string := "one2track".
Definition DEFAULT_UPDATE_RATE_SEC : Z := 60.

End Common.

(** ** Python exceptions and results

    [exn] ranges over instances of Python's [Exception] class, which is
    what both [except Exception] clauses of the module catch. *)

Inductive exn : Type :=
| ValueError (arg : string)          (* float() on an unparseable string *)
| TimeoutError                       (* raised by async_timeout.timeout *)
| UpdateFailed (cause : exn)         (* homeassistant ... UpdateFailed(err) *)
| OtherError (cls msg : string).     (* anything a collaborator may raise *)

Inductive Result (A : Type) : Type :=
| Ok (a : A)
| Raise (e : exn).

Arguments Ok {A} a.
Arguments Raise {A} e.

(** ** client.py types *)

Module Client.

(** Modelled from the spec: the [TrackerDevice] type is declared in
    [client.py], which is not part of the sources; its fields are those of
    the Device Record of the data model, all of which the entity reads by
    key.  Coordinates are kept as the numeric strings the API delivers. *)
Record Simcard : Type := {
  tariff_type : string;
  balance_cents : Z
}.

Record Location : Type := {
  latitude : string;
  longitude : string;
  last_communication : string;
  last_location_update : string;
  altitude : Z;
  location_type : string;
  address : string;
  signal_strength : Z;
  satellite_count : Z;
  host : string;
  port : Z;
  battery_percentage : Z
}.

Record TrackerDevice : Type := {
  uuid : string;
  name : string;
  serial_number : string;
  status : string;
  phone_number : string;
  simcard : Simcard;
  last_location : Location
}.

End Client.

Import Client.

(** ** Time and awaited calls *)

Definition datetime : Type := Z.

(** An awaited call of a collaborator: how long it takes to complete
    ([None] when it never does) and what it completes with. *)
Record awaitable (A : Type) : Type := {
  duration : option Z;
  completion : Result A
}.

Arguments duration {A} a.
Arguments completion {A} a.

(** The deadline of [async_timeout.timeout(limit)] has fired before the
    awaited call completed. *)
Definition timed_out {A : Type} (limit : Z) (aw : awaitable A) : Prop :=
  match duration aw with
  | Some d => limit <= d
  | None => True
  end.

(** [async with async_timeout.timeout(limit): await aw] *)
Definition timeout {A : Type} (limit : Z) (aw : awaitable A) : Result A :=
  match duration aw with
  | Some d => if d <? limit then completion aw else Raise TimeoutError
  | None => Raise TimeoutError
  end.

(** ** Logging *)

Inductive level : Type := DEBUG | INFO | ERROR.

Inductive log_msg : Type :=
| MsgUpdateFromCoordinator (data : list TrackerDevice)
| MsgUpdatingSensorData (last : option datetime)
| MsgNoNewData
| MsgErrorInUpdater
| MsgException (err : exn)
| MsgCannotGetZone (err : exn)
| MsgTrackerNotFound (unique_id : string) (new_data : list TrackerDevice).

Definition log_record : Type := (level * log_msg)%type.

(** ** The monad of methods

    A method runs on the state of [self]; it yields a value or raises, the
    state it leaves behind (assignments made before a raise persist), and
    the records it sent to [LOGGER]. *)

Record outcome (S A : Type) : Type := {
  result : Result A;
  state : S;
  logged : list log_record
}.

Arguments result {S A} o.
Arguments state {S A} o.
Arguments logged {S A} o.

Definition M (S A : Type) : Type := S -> outcome S A.

Definition ret {S A : Type} (a : A) : M S A :=
  fun s => {| result := Ok a; state := s; logged := [] |}.

Definition bind {S A B : Type} (m : M S A) (k : A -> M S B) : M S B :=
  fun s =>
    let o := m s in
    match result o with
    | Ok a =>
        let o' := k a (state o) in
        {| result := result o'; state := state o';
           logged := logged o ++ logged o' |}
    | Raise e =>
        {| result := Raise e; state := state o; logged := logged o |}
    end.

Definition raise {S A : Type} (e : exn) : M S A :=
  fun s => {| result := Raise e; state := s; logged := [] |}.

Definition lift {S A : Type} (r : Result A) : M S A :=
  fun s => {| result := r; state := s; logged := [] |}.

Definition get {S : Type} : M S S :=
  fun s => {| result := Ok s; state := s; logged := [] |}.

Definition put {S : Type} (s' : S) : M S unit :=
  fun _ => {| result := Ok tt; state := s'; logged := [] |}.

Definition log {S : Type} (l : level) (m : log_msg) : M S unit :=
  fun s => {| result := Ok tt; state := s; logged := [(l, m)] |}.

(** [try: body except Exception as err: handler err] *)
Definition try_except {S A : Type} (body : M S A) (handler : exn -> M S A)
  : M S A :=
  fun s =>
    let o := body s in
    match result o with
    | Ok a => o
    | Raise e =>
        let o' := handler e (state o) in
        {| result := result o'; state := state o';
           logged := logged o ++ logged o' |}
    end.

Module MNotation.
Notation "x <- c ;; k" := (bind c (fun x => k))
  (at level 61, c at next level, right associativity).
Notation "c ;; k" := (bind c (fun _ => k))
  (at level 61, right associativity).
End MNotation.

Import MNotation.

(** ** class GpsCoordinator(DataUpdateCoordinator) *)

Module GpsCoordinator.

(** [data] is the attribute inherited from [DataUpdateCoordinator] that
    holds the last published snapshot; the opaque handles [hass] and
    [gps_api] carry no state of this module and are left out. *)
Record t : Type := {
  name : string;
  update_interval : Z;
  always_update : bool;
  first_boot : bool;
  last_update : option datetime;
  data : option (list TrackerDevice)
}.

Definition __init__ (first_boot : bool) : t :=
  {| name := "One2Track";
     update_interval := Common.DEFAULT_UPDATE_RATE_SEC;
     always_update := false;
     first_boot := first_boot;
     last_update := None;
     data := None |}.

(** [self.last_update = v] *)
Definition set_last_update (v : option datetime) : M t unit :=
  self <- get ;;
  put {| name := name self;
         update_interval := update_interval self;
         always_update := always_update self;
         first_boot := first_boot self;
         last_update := v;
         data := data self |}.

(** [gps_api_update] is this cycle's call of [self.gps_api.update()] and
    [now] the value of [datetime.now()]. *)
Definition _async_update_data
    (gps_api_update : awaitable (list TrackerDevice)) (now : datetime)
  : M t (option (list TrackerDevice)) :=
  try_except
    (data <- lift (timeout 300 gps_api_update) ;;
     log DEBUG (MsgUpdateFromCoordinator data) ;;
     let update := true in
     self <- get ;;
     if update || first_boot self then
       log DEBUG (MsgUpdatingSensorData (last_update self)) ;;
       set_last_update (Some now) ;;
       ret (Some data)
     else
       log DEBUG MsgNoNewData ;;
       ret None)
    (fun err =>
       log ERROR MsgErrorInUpdater ;;
       log ERROR (MsgException err) ;;
       raise (UpdateFailed err)).

End GpsCoordinator.

(** ** homeassistant.components.zone

    The state object of a zone as [async_active_zone] returns it; only its
    [name] is read.  Such an object defines neither [__bool__] nor
    [__len__], so it is truthy whenever it is not [None]. *)

Module Zone.

Record t : Type := { name : string }.

End Zone.

(** ** class One2TrackSensor(CoordinatorEntity, TrackerEntity) *)

Module One2TrackSensor.

Record t : Type := {
  _device : TrackerDevice;
  _attr_unique_id : string;
  _attr_name : string;
  _zone_name : option string
}.

Definition __init__ (device : TrackerDevice) : t :=
  {| _device := device;
     _attr_unique_id := uuid device;
     _attr_name := "one2track_" ++ Client.name device;
     _zone_name := None |}.

(** The object [self] after [self._device = v]. *)
Definition holding (self : t) (v : TrackerDevice) : t :=
  {| _device := v;
     _attr_unique_id := _attr_unique_id self;
     _attr_name := _attr_name self;
     _zone_name := _zone_name self |}.

(** [self._device = v] *)
Definition set_device (v : TrackerDevice) : M t unit :=
  self <- get ;; put (holding self v).

(** The object [self] after [self._zone_name = v]. *)
Definition in_zone (self : t) (v : option string) : t :=
  {| _device := _device self;
     _attr_unique_id := _attr_unique_id self;
     _attr_name := _attr_name self;
     _zone_name := v |}.

(** [self._zone_name = v] *)
Definition set_zone_name (v : option string) : M t unit :=
  self <- get ;; put (in_zone self v).

(** Truth value of [self._zone_name]: [None] and the empty string are
    false. *)
Definition zone_name_truthy (z : option string) : bool :=
  match z with
  | Some n => negb (n =? "")%string
  | None => false
  end.

(** Truth value of the result of [next(..., None)]: a [TrackerDevice] is a
    dict with keys, hence true; [None] is false. *)
Definition device_truthy (me : option TrackerDevice) : bool :=
  match me with
  | Some _ => true
  | None => false
  end.

Definition name : M t string :=
  self <- get ;; ret (Client.name (_device self)).

Definition source_type : M t string := ret "gps".

Definition location_accuracy : M t Z := ret 10.

Definition should_poll : M t bool := ret false.

Definition icon : M t string := ret "mdi:watch-variant".

Definition battery_level : M t Z :=
  self <- get ;; ret (battery_percentage (last_location (_device self))).

Definition location_name : M t string :=
  self <- get ;;
  if (location_type (last_location (_device self)) =? "WIFI")%string then
    ret "home"
  else
    match _zone_name self with
    | Some zone_name =>
        if zone_name_truthy (Some zone_name) then ret zone_name
        else ret (address (last_location (_device self)))
    | None => ret (address (last_location (_device self)))
    end.

Definition unique_id : M t string :=
  self <- get ;; ret (uuid (_device self)).

(** The [TypeError] of [await] on an object that is not awaitable. *)
Definition not_awaitable (returned : option Zone.t) : exn :=
  OtherError "TypeError"
    match returned with
    | Some _ => "object State can't be used in 'await' expression"
    | None => "object NoneType can't be used in 'await' expression"
    end.

(** [await returned] for what [async_active_zone] returns: neither a zone
    state nor [None] is awaitable, so the expression raises. *)
Definition await_value (returned : option Zone.t) : Result (option Zone.t) :=
  Raise (not_awaitable returned).

Section Collaborators.

(** The values of Python's [float] type and the [float] builtin on
    strings: [None] stands for the [ValueError] it raises on a string that
    is not a number. *)
Variable PyFloat : Type.
Variable float : string -> option PyFloat.

Definition py_float (x : string) : Result PyFloat :=
  match float x with
  | Some f => Ok f
  | None => Raise (ValueError x)
  end.

Definition latitude : M t PyFloat :=
  self <- get ;; lift (py_float (Client.latitude (last_location (_device self)))).

Definition longitude : M t PyFloat :=
  self <- get ;; lift (py_float (Client.longitude (last_location (_device self)))).

(** [async_active_zone] is the host's zone lookup at this call (with
    [self._hass] fixed).  It is a plain function, not a coroutine: the call
    returns a zone state or [None], or raises; the method then applies
    [await] to what the call returned. *)
Definition _async_update_zone
    (async_active_zone : PyFloat -> PyFloat -> Result (option Zone.t))
  : M t unit :=
  try_except
    (lat <- latitude ;;
     lon <- longitude ;;
     returned <- lift (async_active_zone lat lon) ;;
     zone <- lift (await_value returned) ;;
     match zone with
     | Some z => set_zone_name (Some (Zone.name z))
     | None => set_zone_name None
     end)
    (fun err =>
       log ERROR (MsgCannotGetZone err) ;;
       set_zone_name None).

End Collaborators.

Arguments py_float {PyFloat} float x.
Arguments latitude {PyFloat} float.
Arguments longitude {PyFloat} float.
Arguments _async_update_zone {PyFloat} float async_active_zone.

(** [next((x for x in new_data if x['uuid'] == uid), None)] *)
Definition first_with (uid : string) (new_data : list TrackerDevice)
  : option TrackerDevice :=
  find (fun x => (uuid x =? uid)%string) new_data.

(** [new_data] is the value of [self.coordinator.data]. *)
Definition _update_from_latest_data (new_data : list TrackerDevice)
  : M t unit :=
  uid <- unique_id ;;
  let me := first_with uid new_data in
  if device_truthy me then
    match me with
    | Some me => set_device me
    | None => ret tt
    end
  else
    log ERROR (MsgTrackerNotFound uid new_data).

(** *** The attribute bags handed to the host *)

(** Values found in the bags: the record's strings and integers. *)
Inductive attr : Type :=
| AStr (v : string)
| AInt (v : Z).

(** Reading a key of a dict written as a literal, entries in source
    order. *)
Fixpoint entry (key : string) (bag : list (string * attr)) : option attr :=
  match bag with
  | [] => None
  | (k, v) :: rest => if (k =? key)%string then Some v else entry key rest
  end.

Module DeviceInfo.

(** [identifiers] is the set literal [{(DOMAIN, self.unique_id)}]. *)
Record t : Type := {
  identifiers : list (string * string);
  serial_number : string;
  name : string
}.

End DeviceInfo.

Definition device_info : M t DeviceInfo.t :=
  self <- get ;;
  uid <- unique_id ;;
  ret {| DeviceInfo.identifiers := [(Common.DOMAIN, uid)];
         DeviceInfo.serial_number := serial_number (_device self);
         DeviceInfo.name := Client.name (_device self) |}.

Definition extra_state_attributes : M t (list (string * attr)) :=
  self <- get ;;
  ret [ ("serial_number", AStr (serial_number (_device self)));
        ("uuid", AStr (uuid (_device self)));
        ("name", AStr (Client.name (_device self)));
        ("status", AStr (status (_device self)));
        ("phone_number", AStr (phone_number (_device self)));
        ("tariff_type", AStr (tariff_type (simcard (_device self))));
        ("balance_cents", AInt (balance_cents (simcard (_device self))));
        ("last_communication",
         AStr (last_communication (last_location (_device self))));
        ("last_location_update",
         AStr (last_location_update (last_location (_device self))));
        ("altitude", AInt (altitude (last_location (_device self))));
        ("location_type",
         AStr (location_type (last_location (_device self))));
        ("address", AStr (address (last_location (_device self))));
        ("signal_strength",
         AInt (signal_strength (last_location (_device self))));
        ("satellite_count",
         AInt (satellite_count (last_location (_device self))));
        ("host", AStr (host (last_location (_device self))));
        ("port", AInt (port (last_location (_device self)))) ].

(** *** The broadcast handler *)

Section Broadcast.

Variable PyFloat : Type.
Variable float : string -> option PyFloat.

(** [self.async_schedule_update_ha_state()]: called without
    [force_refresh], the host writes the entity's state at once, and for
    that reads its properties; [latitude] and [longitude], read in this
    order, are the reads that can raise, and none of the reads assigns. *)
Definition async_schedule_update_ha_state : M t unit :=
  _ <- latitude float ;;
  _ <- longitude float ;;
  ret tt.

(** The outcome of that state write for an entity holding [held], spelt
    out: the first coordinate [float] rejects decides. *)
Definition state_write (held : TrackerDevice) : Result unit :=
  match float (Client.latitude (last_location held)),
        float (Client.longitude (last_location held)) with
  | None, _ => Raise (ValueError (Client.latitude (last_location held)))
  | Some _, None => Raise (ValueError (Client.longitude (last_location held)))
  | Some _, Some _ => Ok tt
  end.

(** The handler itself: it reconciles, has the host write the state, and
    then hands [self._async_update_zone()] to the host as a task; the task
    has not run when the handler returns, and is not created when the
    state write raised. *)
Definition _handle_coordinator_update (new_data : list TrackerDevice)
  : M t unit :=
  _update_from_latest_data new_data ;;
  async_schedule_update_ha_state ;;
  ret tt.

(** One broadcast seen to its end: the handler and, when it returned
    normally, the zone task it created, run to completion with nothing in
    between. *)
Definition broadcast
    (new_data : list TrackerDevice)
    (async_active_zone : PyFloat -> PyFloat -> Result (option Zone.t))
  : M t unit :=
  _handle_coordinator_update new_data ;;
  _async_update_zone float async_active_zone.

(** The states an entity created for [device] can be in: the handler and
    the zone task are the only code that assigns to it. *)
Inductive reachable (device : TrackerDevice) : t -> Prop :=
| reach_init : reachable device (__init__ device)
| reach_handler : forall (s : t) (new_data : list TrackerDevice),
    reachable device s ->
    reachable device (state (_handle_coordinator_update new_data s))
| reach_zone : forall (s : t)
    (lookup : PyFloat -> PyFloat -> Result (option Zone.t)),
    reachable device s ->
    reachable device (state (_async_update_zone float lookup s)).

End Broadcast.

Arguments async_schedule_update_ha_state {PyFloat} float.
Arguments state_write {PyFloat} float held.
Arguments _handle_coordinator_update {PyFloat} float new_data.
Arguments broadcast {PyFloat} float new_data async_active_zone.
Arguments reachable {PyFloat} float device _.

End One2TrackSensor.

(** ** Successive refresh cycles *)

Module Refresh.

(** The coordinator after the timer has run [_async_update_data] once per
    element of [cycles], oldest first; each element is that cycle's fetch
    and clock reading. *)
Definition cycles_run
    (cycles : list (awaitable (list TrackerDevice) * datetime))
    (c : GpsCoordinator.t) : GpsCoordinator.t :=
  fold_left
    (fun c cycle =>
       state (GpsCoordinator._async_update_data (fst cycle) (snd cycle) c))
    cycles c.

(** The clock reading of the last cycle whose fetch came back in time. *)
Fixpoint last_success
    (cycles : list (awaitable (list TrackerDevice) * datetime))
  : option datetime :=
  match cycles with
  | [] => None
  | (aw, now) :: rest =>
      match last_success rest with
      | Some later => Some later
      | None =>
          match timeout 300 aw with
          | Ok _ => Some now
          | Raise _ => None
          end
      end
  end.

End Refresh.

(** ** async_setup_entry *)

Module Platform.

Inductive setup_msg : Type :=
| MsgSetupEntry
| MsgAddingFound (count : nat)
| MsgAdding (device : TrackerDevice)
| MsgDoneAdding.

(** What a run of [async_setup_entry] leaves behind: its result, the
    coordinator it built, the entities it handed to [async_add_entities]
    (in call order) and its log records. *)
Record setup : Type := {
  returned : Result unit;
  coordinator : option GpsCoordinator.t;
  added : list One2TrackSensor.t;
  setup_logged : list (level * setup_msg)
}.

(** The body of the [for device in devices] loop, on the entities added
    and the records logged so far. *)
Definition add_device
    (acc : list One2TrackSensor.t * list (level * setup_msg))
    (device : TrackerDevice)
  : list One2TrackSensor.t * list (level * setup_msg) :=
  (fst acc ++ [One2TrackSensor.__init__ device],
   snd acc ++ [(DEBUG, MsgAdding device)])%list.

(** [gps_api_update] is the completed call [await gps_api.update()], which
    this function makes outside any [try] and without a deadline. *)
Definition async_setup_entry (gps_api_update : Result (list TrackerDevice))
  : setup :=
  match gps_api_update with
  | Raise e =>
      {| returned := Raise e;
         coordinator := None;
         added := [];
         setup_logged := [(DEBUG, MsgSetupEntry)] |}
  | Ok devices =>
      let coordinator := GpsCoordinator.__init__ true in
      let acc :=
        fold_left add_device devices
          ([], [(DEBUG, MsgSetupEntry);
                (INFO, MsgAddingFound (length devices))]) in
      {| returned := Ok tt;
         coordinator := Some coordinator;
         added := fst acc;
         setup_logged := (snd acc ++ [(DEBUG, MsgDoneAdding)])%list |}
  end.

End Platform.

(** ** Sample data

    The records of the scenarios: tracker "a1" seen over WIFI at
    "123 Main" and over GPS at "456 Oak", and a second tracker "b2". *)

Module Samples.

Definition sim : Simcard :=
  {| tariff_type := "prepaid"; balance_cents := 1500 |}.

Definition loc (lat lon kind addr : string) : Location :=
  {| latitude := lat; longitude := lon;
     last_communication := "2024-05-01T10:00:00";
     last_location_update := "2024-05-01T09:58:00";
     altitude := 12; location_type := kind; address := addr;
     signal_strength := 80; satellite_count := 7;
     host := "10.0.0.1"; port := 8080; battery_percentage := 64 |}.

Definition dev (id nm : string) (l : Location) : TrackerDevice :=
  {| uuid := id; name := nm; serial_number := "SN-" ++ id;
     status := "GPS"; phone_number := "0600000000";
     simcard := sim; last_location := l |}.

Definition a1_wifi : TrackerDevice :=
  dev "a1" "Anna" (loc "52.37" "4.89" "WIFI" "123 Main").

Definition a1_gps : TrackerDevice :=
  dev "a1" "Anna" (loc "52.40" "4.91" "GPS" "456 Oak").

Definition a1_bad : TrackerDevice :=
  dev "a1" "Anna" (loc "n/a" "4.91" "GPS" "456 Oak").

Definition b2_gps : TrackerDevice :=
  dev "b2" "Ben" (loc "51.92" "4.47" "GPS" "9 Quay").

Definition office : Zone.t := {| Zone.name := "Office" |}.

(** A stand-in for [float] on plain decimal literals ([-12.5], [7], [.5]):
    the value is [mantissa / 10 ^ scale]. *)
Definition decimal : Type := (Z * nat)%type.

Definition digit_of (c : Ascii.ascii) : option Z :=
  let n := Z.of_nat (Ascii.nat_of_ascii c) in
  if (48 <=? n) && (n <=? 57) then Some (n - 48) else None.

Fixpoint digits (s : string) (acc : Z) (frac : option nat) (seen : bool)
  : option decimal :=
  match s with
  | EmptyString =>
      if seen then Some (acc, match frac with Some k => k | None => O end)
      else None
  | String c rest =>
      if Ascii.eqb c "."%char then
        match frac with
        | None => digits rest acc (Some O) seen
        | Some _ => None
        end
      else
        match digit_of c with
        | Some d => digits rest (10 * acc + d) (option_map S frac) true
        | None => None
        end
  end.

Definition decimal_float (s : string) : option decimal :=
  match s with
  | String c rest =>
      if Ascii.eqb c "-"%char then
        option_map (fun d => (- fst d, snd d)) (digits rest 0 None false)
      else digits s 0 None false
  | EmptyString => None
  end.

(** A zone lookup that knows one zone, around (52.40, 4.91), fails west of
    the meridian and finds nothing elsewhere. *)
Definition lookup (lat lon : decimal) : Result (option Zone.t) :=
  if fst lon <? 0 then Raise (OtherError "HomeAssistantError" "zone")
  else if (fst lat =? 5240) && (fst lon =? 491) then Ok (Some office)
  else Ok None.

Definition failing_lookup (lat lon : decimal) : Result (option Zone.t) :=
  Raise (OtherError "HomeAssistantError" "zone registry not loaded").

(** Tracker "a1" as an entity: freshly created from a GPS fix, inside the
    zone "Office", with an empty zone name cached, on WIFI with a zone
    cached, and with a latitude that is not a number. *)
Definition a1_fresh : One2TrackSensor.t := One2TrackSensor.__init__ a1_gps.

Definition a1_at_office : One2TrackSensor.t :=
  One2TrackSensor.in_zone a1_fresh (Some "Office").

Definition a1_at_school : One2TrackSensor.t :=
  One2TrackSensor.in_zone a1_fresh (Some "School").

Definition a1_unnamed_zone : One2TrackSensor.t :=
  One2TrackSensor.in_zone a1_fresh (Some "").

Definition a1_home : One2TrackSensor.t :=
  One2TrackSensor.in_zone (One2TrackSensor.__init__ a1_wifi) (Some "Office").

Definition a1_broken : One2TrackSensor.t :=
  One2TrackSensor.in_zone (One2TrackSensor.__init__ a1_bad) (Some "Office").

(** A record of "a1" whose longitude is the empty string. *)
Definition a1_no_lon : TrackerDevice :=
  dev "a1" "Anna" (loc "52.40" "" "GPS" "456 Oak").

(** A record of "a1" under another name, with no address. *)
Definition a1_renamed : TrackerDevice :=
  dev "a1" "Annabel" (loc "52.40" "4.91" "GPS" "").

(** Calls of the fetcher: an answer after 2 time units, an error after 1,
    an answer that arrives exactly at the deadline, and a call that never
    completes. *)
Definition fetch_ok : awaitable (list TrackerDevice) :=
  {| duration := Some 2; completion := Ok [a1_gps; b2_gps] |}.

Definition fetch_error : awaitable (list TrackerDevice) :=
  {| duration := Some 1;
     completion := Raise (OtherError "ClientResponseError" "503") |}.

Definition fetch_late : awaitable (list TrackerDevice) :=
  {| duration := Some 300; completion := Ok [a1_gps] |}.

Definition fetch_hangs : awaitable (list TrackerDevice) :=
  {| duration := None; completion := Ok [] |}.

(** A coordinator in steady state: flag cleared by hand, one snapshot
    published at time 940. *)
Definition running : GpsCoordinator.t :=
  {| GpsCoordinator.name := "One2Track";
     GpsCoordinator.update_interval := 60;
     GpsCoordinator.always_update := false;
     GpsCoordinator.first_boot := false;
     GpsCoordinator.last_update := Some 940;
     GpsCoordinator.data := Some [a1_gps; b2_gps] |}.

End Samples.

(** * Properties *)

(** ** The refresh operation of the coordinator *)

Section CoordinatorProperties.

Import GpsCoordinator.

(** What the fetch, seen through the 300-unit deadline, decides about one
    run of the refresh operation. *)
Lemma _async_update_data_run :
  forall (aw : awaitable (list TrackerDevice)) (now : datetime) (c : t),
    _async_update_data aw now c =
    match timeout 300 aw with
    | Ok d =>
        {| result := Ok (Some d);
           state := {| name := name c;
                       update_interval := update_interval c;
                       always_update := always_update c;
                       first_boot := first_boot c;
                       last_update := Some now;
                       data := data c |};
           logged := [(DEBUG, MsgUpdateFromCoordinator d);
                      (DEBUG, MsgUpdatingSensorData (last_update c))] |}
    | Raise e =>
        {| result := Raise (UpdateFailed e);
           state := c;
           logged := [(ERROR, MsgErrorInUpdater); (ERROR, MsgException e)] |}
    end.
Proof.
  intros aw now c.
  unfold _async_update_data, try_except, bind, lift.
  simpl.
  destruct (timeout 300 aw) as [d | e]; reflexivity.
Qed.

Lemma timeout_in_time :
  forall (A : Type) (aw : awaitable A) (limit d : Z),
    duration aw = Some d -> d < limit -> timeout limit aw = completion aw.
Proof.
  intros A aw limit d Hd Hlt.
  unfold timeout. rewrite Hd.
  apply Z.ltb_lt in Hlt. now rewrite Hlt.
Qed.

Lemma timeout_timed_out :
  forall (A : Type) (aw : awaitable A) (limit : Z),
    timed_out limit aw -> timeout limit aw = Raise TimeoutError.
Proof.
  intros A aw limit.
  unfold timed_out, timeout.
  destruct (duration aw) as [d | ]; [ | reflexivity ].
  intros Hle.
  apply Z.ltb_ge in Hle. now rewrite Hle.
Qed.

Lemma timeout_not_timed_out :
  forall (A : Type) (aw : awaitable A) (limit : Z),
    ~ timed_out limit aw -> timeout limit aw = completion aw.
Proof.
  intros A aw limit Hnot.
  unfold timed_out in Hnot.
  destruct (duration aw) as [d | ] eqn:Hd; [ | now destruct Hnot ].
  apply (timeout_in_time _ aw limit d Hd). lia.
Qed.

Lemma timed_out_dec :
  forall (A : Type) (aw : awaitable A) (limit : Z),
    timed_out limit aw \/ ~ timed_out limit aw.
Proof.
  intros A aw limit. unfold timed_out.
  destruct (duration aw) as [d | ]; [ lia | now left ].
Qed.

(** C5: when the fetcher's [update()] raises, or the 300-unit deadline
    fires first, [_async_update_data] raises one [UpdateFailed] that wraps
    the cause, and the coordinator is left exactly as it was: same
    last-update timestamp, same published snapshot, same first-boot flag. *)
Theorem fetch_failure_raises_update_failed :
  forall (aw : awaitable (list TrackerDevice)) (now : datetime) (c : t),
    (timed_out 300 aw \/ exists e, completion aw = Raise e) ->
    exists err,
      _async_update_data aw now c =
      {| result := Raise (UpdateFailed err);
         state := c;
         logged := [(ERROR, MsgErrorInUpdater); (ERROR, MsgException err)] |}
      /\ (timed_out 300 aw -> err = TimeoutError)
      /\ (~ timed_out 300 aw -> completion aw = Raise err).
Proof.
  intros aw now c Hfail.
  rewrite _async_update_data_run.
  destruct (timed_out_dec _ aw 300) as [Hto | Hin].
  - exists TimeoutError.
    rewrite (timeout_timed_out _ aw 300 Hto).
    repeat split; tauto.
  - destruct Hfail as [Hto | [e He]]; [ contradiction | ].
    exists e.
    rewrite (timeout_not_timed_out _ aw 300 Hin), He.
    repeat split; tauto.
Qed.

Lemma fetch_failure_raises_update_failed_witness :
  (exists err,
     _async_update_data Samples.fetch_error 1000 (__init__ true) =
     {| result := Raise (UpdateFailed err);
        state := __init__ true;
        logged := [(ERROR, MsgErrorInUpdater); (ERROR, MsgException err)] |}
     /\ (timed_out 300 Samples.fetch_error -> err = TimeoutError)
     /\ (~ timed_out 300 Samples.fetch_error ->
         completion Samples.fetch_error = Raise err))
  /\
  (exists err,
     _async_update_data Samples.fetch_hangs 1000 (__init__ false) =
     {| result := Raise (UpdateFailed err);
        state := __init__ false;
        logged := [(ERROR, MsgErrorInUpdater); (ERROR, MsgException err)] |}
     /\ (timed_out 300 Samples.fetch_hangs -> err = TimeoutError)
     /\ (~ timed_out 300 Samples.fetch_hangs ->
         completion Samples.fetch_hangs = Raise err)).
Proof.
  split.
  - apply (fetch_failure_raises_update_failed
             Samples.fetch_error 1000 (__init__ true)).
    right. eexists. reflexivity.
  - apply (fetch_failure_raises_update_failed
             Samples.fetch_hangs 1000 (__init__ false)).
    left. exact I.
Defined.

(** C6, as the code has it: no run of the refresh operation, successful or
    not, writes the first-boot flag; the coordinator keeps the value it was
    constructed with. *)
Theorem refresh_keeps_first_boot :
  forall (aw : awaitable (list TrackerDevice)) (now : datetime) (c : t),
    first_boot (state (_async_update_data aw now c)) = first_boot c.
Proof.
  intros aw now c.
  rewrite _async_update_data_run.
  case (timeout 300 aw); intros; reflexivity.
Qed.

(** C6 does not hold as stated: a coordinator built with the first-boot
    flag set (as [async_setup_entry] builds it) still has the flag set
    after a refresh whose fetch succeeded well within the deadline. *)
Lemma first_boot_still_set_after_success :
  let o := _async_update_data Samples.fetch_ok 1000 (__init__ true) in
  result o = Ok (Some [Samples.a1_gps; Samples.b2_gps])
  /\ first_boot (state o) = true
  /\ first_boot (state o) <> false.
Proof.
  cbv zeta. repeat split. discriminate.
Qed.

(** C7: a fetch that returns [data] within the deadline makes
    [_async_update_data] return exactly [data] and record [now] as the
    last-update time, whatever the first-boot flag and the previously
    published snapshot are; it never returns [None] and never logs
    "No new data to enter". *)
Theorem successful_fetch_always_published :
  forall (aw : awaitable (list TrackerDevice)) (now : datetime) (c : t)
         (d : Z) (fetched : list TrackerDevice),
    duration aw = Some d -> d < 300 -> completion aw = Ok fetched ->
    let o := _async_update_data aw now c in
    result o = Ok (Some fetched)
    /\ last_update (state o) = Some now
    /\ first_boot (state o) = first_boot c
    /\ data (state o) = data c
    /\ logged o = [(DEBUG, MsgUpdateFromCoordinator fetched);
                   (DEBUG, MsgUpdatingSensorData (last_update c))]
    /\ result o <> Ok None
    /\ ~ In (DEBUG, MsgNoNewData) (logged o).
Proof.
  intros aw now c d fetched Hd Hlt Hok o.
  subst o.
  rewrite _async_update_data_run.
  rewrite (timeout_in_time _ aw 300 d Hd Hlt), Hok.
  cbn [result state logged last_update first_boot data].
  repeat split.
  - discriminate.
  - intros [H | [H | []]]; discriminate H.
Qed.

Lemma successful_fetch_always_published_witness :
  let o := _async_update_data Samples.fetch_ok 1000 Samples.running in
  result o = Ok (Some [Samples.a1_gps; Samples.b2_gps])
  /\ last_update (state o) = Some 1000
  /\ first_boot (state o) = false
  /\ data (state o) = Some [Samples.a1_gps; Samples.b2_gps]
  /\ logged o = [(DEBUG, MsgUpdateFromCoordinator
                            [Samples.a1_gps; Samples.b2_gps]);
                 (DEBUG, MsgUpdatingSensorData (Some 940))]
  /\ result o <> Ok None
  /\ ~ In (DEBUG, MsgNoNewData) (logged o).
Proof.
  assert (Hd : duration Samples.fetch_ok = Some 2) by reflexivity.
  assert (Hlt : 2 < 300) by reflexivity.
  assert (Hok : completion Samples.fetch_ok
                = Ok [Samples.a1_gps; Samples.b2_gps]) by reflexivity.
  exact (successful_fetch_always_published
           Samples.fetch_ok 1000 Samples.running 2 _ Hd Hlt Hok).
Defined.

End CoordinatorProperties.

(** ** Reconciliation of a tracked device with a snapshot *)

Section ReconciliationProperties.

Import One2TrackSensor.

Local Open Scope list_scope.

Lemma _update_from_latest_data_run :
  forall (new_data : list TrackerDevice) (s : t),
    _update_from_latest_data new_data s =
    match first_with (uuid (_device s)) new_data with
    | Some me =>
        {| result := Ok tt; state := holding s me; logged := [] |}
    | None =>
        {| result := Ok tt; state := s;
           logged := [(ERROR,
                       MsgTrackerNotFound (uuid (_device s)) new_data)] |}
    end.
Proof.
  intros new_data s.
  unfold _update_from_latest_data, unique_id, bind.
  simpl.
  destruct (first_with (uuid (_device s)) new_data); reflexivity.
Qed.

(** The search returns the first record carrying the identifier. *)
Lemma first_with_split :
  forall (uid : string) (new_data : list TrackerDevice) (m : TrackerDevice),
    first_with uid new_data = Some m ->
    exists pre post,
      new_data = pre ++ m :: post
      /\ uuid m = uid
      /\ Forall (fun x => uuid x <> uid) pre.
Proof.
  intros uid new_data m. unfold first_with.
  induction new_data as [ | x rest IH]; simpl.
  - discriminate.
  - destruct (uuid x =? uid)%string eqn:Hx.
    + intros [= ->].
      exists [], rest. apply String.eqb_eq in Hx. auto.
    + intros Hrest.
      destruct (IH Hrest) as (pre & post & -> & Hm & Hpre).
      exists (x :: pre), post.
      apply String.eqb_neq in Hx. auto.
Qed.

Lemma first_with_found :
  forall (uid : string) (new_data : list TrackerDevice) (r : TrackerDevice),
    In r new_data -> uuid r = uid ->
    exists m, first_with uid new_data = Some m.
Proof.
  intros uid new_data r Hin Hr.
  destruct (first_with uid new_data) as [m | ] eqn:Hfind.
  - now exists m.
  - unfold first_with in Hfind. apply (find_none _ _ Hfind) in Hin.
    apply String.eqb_neq in Hin. contradiction.
Qed.

Lemma first_with_absent :
  forall (uid : string) (new_data : list TrackerDevice),
    (forall x, In x new_data -> uuid x <> uid) ->
    first_with uid new_data = None.
Proof.
  intros uid new_data Habs.
  destruct (first_with uid new_data) as [m | ] eqn:Hfind; [ | reflexivity ].
  unfold first_with in Hfind.
  apply find_some in Hfind. destruct Hfind as [Hin Heq].
  apply String.eqb_eq in Heq. now apply Habs in Hin.
Qed.

(** C1: if the snapshot contains a record [r] whose uuid is the device's
    unique id, reconciliation succeeds silently and the record the device
    then caches is a record [m] of the snapshot, taken whole in place of
    the previous one (every field read afterwards is [m]'s, nothing of the
    old record survives); the zone cache and the attributes set at
    construction are untouched.  [m] is the first record with that uuid,
    and it is [r] itself as soon as uuids are unique within the snapshot. *)
Theorem reconcile_found_replaces_record :
  forall (s : t) (new_data : list TrackerDevice) (r : TrackerDevice),
    In r new_data -> uuid r = uuid (_device s) ->
    exists m,
      result (_update_from_latest_data new_data s) = Ok tt
      /\ logged (_update_from_latest_data new_data s) = []
      /\ _device (state (_update_from_latest_data new_data s)) = m
      /\ _zone_name (state (_update_from_latest_data new_data s))
         = _zone_name s
      /\ _attr_unique_id (state (_update_from_latest_data new_data s))
         = _attr_unique_id s
      /\ _attr_name (state (_update_from_latest_data new_data s))
         = _attr_name s
      /\ (exists pre post,
            new_data = pre ++ m :: post
            /\ uuid m = uuid r
            /\ Forall (fun x => uuid x <> uuid r) pre)
      /\ ((forall x, In x new_data -> uuid x = uuid r -> x = r) -> m = r).
Proof.
  intros s new_data r Hin Hr.
  destruct (first_with_found _ _ _ Hin Hr) as [m Hfind].
  exists m.
  rewrite _update_from_latest_data_run, Hfind.
  cbn [result state logged holding
       _device _zone_name _attr_unique_id _attr_name].
  do 6 (split; [ reflexivity | ]).
  rewrite Hr.
  destruct (first_with_split _ _ _ Hfind) as (pre & post & Hsplit & Hm & Hpre).
  split.
  - now exists pre, post.
  - intros Huniq. apply Huniq.
    + rewrite Hsplit. apply in_or_app. right. now left.
    + congruence.
Qed.

Lemma reconcile_found_replaces_record_witness :
  exists m,
    result (_update_from_latest_data [Samples.b2_gps; Samples.a1_gps]
              Samples.a1_home) = Ok tt
    /\ logged (_update_from_latest_data [Samples.b2_gps; Samples.a1_gps]
                 Samples.a1_home) = []
    /\ _device (state (_update_from_latest_data
                         [Samples.b2_gps; Samples.a1_gps] Samples.a1_home))
       = m
    /\ _zone_name (state (_update_from_latest_data
                            [Samples.b2_gps; Samples.a1_gps]
                            Samples.a1_home))
       = _zone_name Samples.a1_home
    /\ _attr_unique_id (state (_update_from_latest_data
                                 [Samples.b2_gps; Samples.a1_gps]
                                 Samples.a1_home))
       = _attr_unique_id Samples.a1_home
    /\ _attr_name (state (_update_from_latest_data
                            [Samples.b2_gps; Samples.a1_gps]
                            Samples.a1_home))
       = _attr_name Samples.a1_home
    /\ (exists pre post,
          [Samples.b2_gps; Samples.a1_gps] = pre ++ m :: post
          /\ uuid m = uuid Samples.a1_gps
          /\ Forall (fun x => uuid x <> uuid Samples.a1_gps) pre)
    /\ ((forall x, In x [Samples.b2_gps; Samples.a1_gps] ->
                   uuid x = uuid Samples.a1_gps -> x = Samples.a1_gps) ->
        m = Samples.a1_gps).
Proof.
  apply (reconcile_found_replaces_record
           Samples.a1_home
           [Samples.b2_gps; Samples.a1_gps] Samples.a1_gps).
  - simpl. right. left. reflexivity.
  - reflexivity.
Defined.

(** The record cached after that reconciliation is the GPS record of the
    snapshot, field for field: the WIFI record held before has left
    nothing behind. *)
Example reconcile_swaps_wifi_for_gps :
  _device (state (_update_from_latest_data
                    [Samples.b2_gps; Samples.a1_gps] Samples.a1_home))
  = Samples.a1_gps
  /\ _device Samples.a1_home = Samples.a1_wifi.
Proof. split; reflexivity. Qed.

(** C2: if no record of the snapshot carries the device's uuid (the empty
    snapshot included), reconciliation returns normally, leaves the whole
    device state as it was, and reports the anomaly as one ERROR log
    record. *)
Theorem reconcile_missing_holds_last_record :
  forall (s : t) (new_data : list TrackerDevice),
    (forall x, In x new_data -> uuid x <> uuid (_device s)) ->
    _update_from_latest_data new_data s =
    {| result := Ok tt;
       state := s;
       logged := [(ERROR, MsgTrackerNotFound (uuid (_device s)) new_data)] |}.
Proof.
  intros s new_data Habs.
  rewrite _update_from_latest_data_run.
  now rewrite (first_with_absent _ _ Habs).
Qed.

Lemma reconcile_missing_holds_last_record_witness :
  _update_from_latest_data [] (__init__ Samples.a1_gps) =
  {| result := Ok tt;
     state := __init__ Samples.a1_gps;
     logged := [(ERROR, MsgTrackerNotFound "a1" [])] |}
  /\
  _update_from_latest_data [Samples.b2_gps] (__init__ Samples.a1_gps) =
  {| result := Ok tt;
     state := __init__ Samples.a1_gps;
     logged := [(ERROR, MsgTrackerNotFound "a1" [Samples.b2_gps])] |}.
Proof.
  split.
  - apply (reconcile_missing_holds_last_record (__init__ Samples.a1_gps) []).
    intros x [].
  - apply (reconcile_missing_holds_last_record
             (__init__ Samples.a1_gps) [Samples.b2_gps]).
    intros x [<- | []]. discriminate.
Defined.

(** C10: reconciliation never changes the device's unique id: the id read
    after the step is the id read before it, for every device state and
    every snapshot. *)
Theorem reconcile_preserves_unique_id :
  forall (s : t) (new_data : list TrackerDevice),
    result (unique_id (state (_update_from_latest_data new_data s)))
    = result (unique_id s)
    /\ uuid (_device (state (_update_from_latest_data new_data s)))
       = uuid (_device s).
Proof.
  intros s new_data.
  rewrite _update_from_latest_data_run.
  destruct (first_with (uuid (_device s)) new_data) as [m | ] eqn:Hfind.
  - apply first_with_split in Hfind.
    destruct Hfind as (pre & post & _ & Hm & _).
    unfold unique_id, bind, get, ret. simpl.
    now rewrite Hm.
  - split; reflexivity.
Qed.

End ReconciliationProperties.

(** ** The location label *)

Section LabelProperties.

Import One2TrackSensor.

Lemma location_name_run :
  forall s : t,
    location_name s =
    {| result :=
         Ok (if (location_type (last_location (_device s)) =? "WIFI")%string
             then "home"
             else if zone_name_truthy (_zone_name s)
                  then match _zone_name s with
                       | Some z => z
                       | None => address (last_location (_device s))
                       end
                  else address (last_location (_device s)));
       state := s;
       logged := [] |}.
Proof.
  intros s.
  unfold location_name, bind, get. simpl.
  destruct (location_type (last_location (_device s)) =? "WIFI")%string.
  - reflexivity.
  - destruct (_zone_name s) as [z | ]; [ | reflexivity ].
    unfold zone_name_truthy.
    destruct (negb (z =? "")%string); reflexivity.
Qed.

(** C3: whenever the cached record's location_type is "WIFI" the label
    read returns "home", whatever zone name is cached and whatever the
    record's address is; the read changes nothing and logs nothing. *)
Theorem location_name_wifi_is_home :
  forall s : t,
    location_type (last_location (_device s)) = "WIFI" ->
    location_name s = {| result := Ok "home"; state := s; logged := [] |}.
Proof.
  intros s Hwifi.
  rewrite location_name_run, Hwifi.
  reflexivity.
Qed.

Lemma location_name_wifi_is_home_witness :
  _zone_name Samples.a1_home = Some "Office"
  /\ address (last_location (_device Samples.a1_home)) = "123 Main"
  /\ location_name Samples.a1_home =
     {| result := Ok "home"; state := Samples.a1_home; logged := [] |}.
Proof.
  split; [ reflexivity | split; [ reflexivity | ] ].
  apply (location_name_wifi_is_home Samples.a1_home).
  reflexivity.
Defined.

(** C4: when the cached record's location_type is not "WIFI" and no zone
    name is cached ([None], or the empty string), the label read returns
    the record's address string itself. *)
Theorem location_name_falls_back_to_address :
  forall s : t,
    location_type (last_location (_device s)) <> "WIFI" ->
    _zone_name s = None \/ _zone_name s = Some "" ->
    location_name s =
    {| result := Ok (address (last_location (_device s)));
       state := s;
       logged := [] |}.
Proof.
  intros s Hnot Hzone.
  rewrite location_name_run.
  apply String.eqb_neq in Hnot. rewrite Hnot.
  destruct Hzone as [-> | ->]; reflexivity.
Qed.

Lemma location_name_falls_back_to_address_witness :
  location_name Samples.a1_fresh =
  {| result := Ok "456 Oak"; state := Samples.a1_fresh; logged := [] |}
  /\
  location_name Samples.a1_unnamed_zone =
  {| result := Ok "456 Oak"; state := Samples.a1_unnamed_zone; logged := [] |}.
Proof.
  split.
  - apply (location_name_falls_back_to_address Samples.a1_fresh).
    + discriminate.
    + left. reflexivity.
  - apply (location_name_falls_back_to_address Samples.a1_unnamed_zone).
    + discriminate.
    + right. reflexivity.
Defined.

(** The middle rule of the precedence: a non-empty cached zone name is the
    label of a record that is not on WIFI. *)
Lemma location_name_uses_zone :
  forall (s : t) (z : string),
    location_type (last_location (_device s)) <> "WIFI" ->
    _zone_name s = Some z -> z <> "" ->
    location_name s = {| result := Ok z; state := s; logged := [] |}.
Proof.
  intros s z Hnot Hz Hne.
  rewrite location_name_run, Hz.
  apply String.eqb_neq in Hnot, Hne. rewrite Hnot.
  simpl. now rewrite Hne.
Qed.

End LabelProperties.

(** ** Coordinate reads and zone resolution *)

Section CoordinateProperties.

Import One2TrackSensor.

Variable PyFloat : Type.
Variable float : string -> option PyFloat.

Lemma latitude_run :
  forall s : t,
    latitude float s =
    {| result := py_float float (Client.latitude (last_location (_device s)));
       state := s;
       logged := [] |}.
Proof.
  intros s. unfold latitude, bind, get, lift. simpl.
  now destruct (py_float float _).
Qed.

Lemma longitude_run :
  forall s : t,
    longitude float s =
    {| result := py_float float (Client.longitude (last_location (_device s)));
       state := s;
       logged := [] |}.
Proof.
  intros s. unfold longitude, bind, get, lift. simpl.
  now destruct (py_float float _).
Qed.

(** One run of the zone resolution, by what [float] and the lookup do:
    every path ends in the [except] clause. *)
Lemma _async_update_zone_run :
  forall (lookup : PyFloat -> PyFloat -> Result (option Zone.t)) (s : t),
    _async_update_zone float lookup s =
    let lat := Client.latitude (last_location (_device s)) in
    let lon := Client.longitude (last_location (_device s)) in
    {| result := Ok tt;
       state := in_zone s None;
       logged :=
         [(ERROR,
           MsgCannotGetZone
             match float lat, float lon with
             | None, _ => ValueError lat
             | Some _, None => ValueError lon
             | Some la, Some lo =>
                 match lookup la lo with
                 | Ok returned => not_awaitable returned
                 | Raise e => e
                 end
             end)] |}.
Proof.
  intros lookup s.
  unfold _async_update_zone, try_except, latitude, longitude, py_float.
  unfold await_value, set_zone_name, bind, lift, log, get, put.
  cbn [result state logged app].
  destruct (float (Client.latitude _)) as [la | ];
    cbn [result state logged app]; [ | reflexivity ].
  destruct (float (Client.longitude _)) as [lo | ];
    cbn [result state logged app]; [ | reflexivity ].
  destruct (lookup la lo) as [returned | e]; reflexivity.
Qed.

(** C8: the latitude and longitude reads return what [float] makes of the
    record's latitude and longitude strings; when the string is not a
    number the read raises the [ValueError] of [float] to its caller, with
    no default in its place; either way the read leaves the device state
    as it was, so a failed read of one coordinate affects nothing else. *)
Theorem coordinate_reads_parse_or_raise :
  forall s : t,
    let lat := Client.latitude (last_location (_device s)) in
    let lon := Client.longitude (last_location (_device s)) in
    (forall f, float lat = Some f -> result (latitude float s) = Ok f)
    /\ (float lat = None ->
        result (latitude float s) = Raise (ValueError lat))
    /\ (forall f, float lon = Some f -> result (longitude float s) = Ok f)
    /\ (float lon = None ->
        result (longitude float s) = Raise (ValueError lon))
    /\ state (latitude float s) = s
    /\ logged (latitude float s) = []
    /\ state (longitude float s) = s
    /\ logged (longitude float s) = [].
Proof.
  intros s lat lon.
  rewrite latitude_run, longitude_run.
  cbn [result state logged]. unfold py_float. fold lat. fold lon.
  repeat split; try (intros f Hf; now rewrite Hf); intros Hf; now rewrite Hf.
Qed.

End CoordinateProperties.

Section CoordinateWitnesses.

Import One2TrackSensor.

Lemma coordinate_reads_parse_or_raise_witness :
  result (latitude Samples.decimal_float Samples.a1_broken)
  = Raise (ValueError "n/a")
  /\ result (longitude Samples.decimal_float Samples.a1_broken)
     = Ok (491, 2%nat)
  /\ result (latitude Samples.decimal_float Samples.a1_fresh)
     = Ok (5240, 2%nat)
  /\ state (latitude Samples.decimal_float Samples.a1_broken)
     = Samples.a1_broken.
Proof.
  pose proof (coordinate_reads_parse_or_raise
                Samples.decimal Samples.decimal_float Samples.a1_broken)
    as Hbroken.
  pose proof (coordinate_reads_parse_or_raise
                Samples.decimal Samples.decimal_float Samples.a1_fresh)
    as Hfresh.
  cbv zeta in Hbroken, Hfresh.
  destruct Hbroken as (_ & Hlat & Hlon & _ & Hstate & _).
  destruct Hfresh as (Hlat' & _).
  split; [ apply Hlat; reflexivity | ].
  split; [ apply Hlon; reflexivity | ].
  split; [ apply Hlat'; reflexivity | exact Hstate ].
Defined.

(** C9 (defect of the code): tracker "a1", with the zone "School" cached
    from before, stands at (52.40, 4.91), where the lookup returns the zone
    "Office".  The method applies [await] to that return value, which is
    not awaitable, so the [TypeError] lands in the [except] clause: the
    step returns normally, logs the error and leaves the zone cache [None]
    instead of "Office", and the next label read gives the address.  The
    claim's other half holds: nothing is propagated, and a lookup that
    raises empties the cache as well. *)
Theorem zone_update_discards_returned_zone :
  _zone_name Samples.a1_at_school = Some "School"
  /\ Samples.decimal_float "52.40" = Some (5240, 2%nat)
  /\ Samples.decimal_float "4.91" = Some (491, 2%nat)
  /\ Samples.lookup (5240, 2%nat) (491, 2%nat) = Ok (Some Samples.office)
  /\ result (_async_update_zone Samples.decimal_float Samples.lookup
               Samples.a1_at_school) = Ok tt
  /\ _zone_name (state (_async_update_zone Samples.decimal_float
                          Samples.lookup Samples.a1_at_school)) = None
  /\ _zone_name (state (_async_update_zone Samples.decimal_float
                          Samples.lookup Samples.a1_at_school))
     <> Some (Zone.name Samples.office)
  /\ logged (_async_update_zone Samples.decimal_float Samples.lookup
               Samples.a1_at_school)
     = [(ERROR, MsgCannotGetZone (not_awaitable (Some Samples.office)))]
  /\ result (location_name
               (state (_async_update_zone Samples.decimal_float
                         Samples.lookup Samples.a1_at_school)))
     = Ok "456 Oak"
  /\ _zone_name (state (_async_update_zone Samples.decimal_float
                          Samples.failing_lookup Samples.a1_at_school))
     = None.
Proof.
  repeat split. discriminate.
Qed.

End CoordinateWitnesses.

(** ** The scenarios of the specification, run on the model *)

Section Scenarios.

Import One2TrackSensor.

(** Snapshot [[a1 on WIFI at "123 Main"]]: the label of "a1" is "home". *)
Example scenario_wifi_label :
  let o := _update_from_latest_data [Samples.a1_wifi] Samples.a1_at_office in
  result (location_name (state o)) = Ok "home".
Proof. reflexivity. Qed.

(** Snapshot [[a1 on GPS at "456 Oak"]], the lookup finds no zone: the
    label is "456 Oak". *)
Example scenario_gps_no_zone_label :
  let o := _update_from_latest_data [Samples.a1_gps]
             (__init__ Samples.a1_wifi) in
  let o' := _async_update_zone Samples.decimal_float
              (fun _ _ => Ok None) (state o) in
  result (location_name (state o')) = Ok "456 Oak".
Proof. reflexivity. Qed.

(** Same snapshot, the lookup answers "Office" before the next read: the
    answer is lost in the [await] and the label stays "456 Oak". *)
Example scenario_gps_zone_label :
  let o := _update_from_latest_data [Samples.a1_gps]
             (__init__ Samples.a1_wifi) in
  let o' := _async_update_zone Samples.decimal_float
              Samples.lookup (state o) in
  result (location_name (state o')) = Ok "456 Oak".
Proof. reflexivity. Qed.

(** Duplicate uuids in one snapshot, which the data model rules out: the
    first record is the one kept. *)
Example scenario_duplicate_uuid_first_wins :
  state (_update_from_latest_data [Samples.a1_gps; Samples.a1_wifi]
           Samples.a1_home)
  = holding Samples.a1_home Samples.a1_gps.
Proof. reflexivity. Qed.

(** The fetch raises a timeout error: one failure signal, no snapshot. *)
Example scenario_fetch_times_out :
  GpsCoordinator._async_update_data Samples.fetch_late 1000 Samples.running
  = {| result := Raise (UpdateFailed TimeoutError);
       state := Samples.running;
       logged := [(ERROR, MsgErrorInUpdater);
                  (ERROR, MsgException TimeoutError)] |}.
Proof. reflexivity. Qed.

End Scenarios.

(** * Further properties of the code *)

(** ** Reconciliation as an operation on snapshots *)

Section ReconciliationAlgebra.

Import One2TrackSensor.

Local Open Scope list_scope.

(** The state reconciliation leaves, by what the search finds. *)
Lemma reconcile_state :
  forall (new_data : list TrackerDevice) (s : t),
    state (_update_from_latest_data new_data s) =
    match first_with (uuid (_device s)) new_data with
    | Some me => holding s me
    | None => s
    end.
Proof.
  intros new_data s.
  rewrite _update_from_latest_data_run.
  now destruct (first_with (uuid (_device s)) new_data).
Qed.

Lemma reconcile_result :
  forall (new_data : list TrackerDevice) (s : t),
    result (_update_from_latest_data new_data s) = Ok tt.
Proof.
  intros new_data s.
  rewrite _update_from_latest_data_run.
  now destruct (first_with (uuid (_device s)) new_data).
Qed.

Lemma first_with_uuid :
  forall (uid : string) (new_data : list TrackerDevice) (m : TrackerDevice),
    first_with uid new_data = Some m -> uuid m = uid /\ In m new_data.
Proof.
  intros uid new_data m Hfind.
  destruct (first_with_split _ _ _ Hfind) as (pre & post & -> & Hm & _).
  split; [ exact Hm | ].
  apply in_or_app. right. now left.
Qed.

Lemma uuid_injective_on :
  forall (l : list TrackerDevice) (x y : TrackerDevice),
    NoDup (map uuid l) -> In x l -> In y l -> uuid x = uuid y -> x = y.
Proof.
  induction l as [ | a l IH]; intros x y Hnd Hx Hy Heq.
  - destruct Hx.
  - simpl in Hnd. inversion Hnd as [ | ? ? Hnotin Hnd']; subst.
    destruct Hx as [-> | Hx], Hy as [-> | Hy].
    + reflexivity.
    + exfalso. apply Hnotin. rewrite Heq. now apply in_map.
    + exfalso. apply Hnotin. rewrite <- Heq. now apply in_map.
    + now apply IH.
Qed.

Lemma first_with_unique :
  forall (uid : string) (l : list TrackerDevice) (m : TrackerDevice),
    NoDup (map uuid l) -> In m l -> uuid m = uid ->
    first_with uid l = Some m.
Proof.
  intros uid l m Hnd Hin Hm.
  destruct (first_with_found uid l m Hin Hm) as [m' Hfind].
  rewrite Hfind. f_equal.
  destruct (first_with_uuid _ _ _ Hfind) as [Hm' Hin'].
  apply (uuid_injective_on l); auto. congruence.
Qed.

Lemma first_with_permutation :
  forall (uid : string) (l l' : list TrackerDevice),
    NoDup (map uuid l) -> Permutation l l' ->
    first_with uid l' = first_with uid l.
Proof.
  intros uid l l' Hnd Hperm.
  destruct (first_with uid l) as [m | ] eqn:Hfind.
  - destruct (first_with_uuid _ _ _ Hfind) as [Hm Hin].
    apply first_with_unique.
    + apply (Permutation_NoDup (Permutation_map uuid Hperm) Hnd).
    + apply (Permutation_in _ Hperm Hin).
    + exact Hm.
  - apply first_with_absent.
    intros x Hx Hux.
    apply (Permutation_in _ (Permutation_sym Hperm)) in Hx.
    destruct (first_with_found uid l x Hx Hux) as [m Hm].
    congruence.
Qed.

Lemma first_with_filter :
  forall (uid : string) (l : list TrackerDevice),
    first_with uid (filter (fun x => (uuid x =? uid)%string) l)
    = first_with uid l.
Proof.
  intros uid l. unfold first_with.
  induction l as [ | x l IH]; simpl; [ reflexivity | ].
  destruct (uuid x =? uid)%string eqn:Hx; simpl.
  - now rewrite Hx.
  - exact IH.
Qed.

(** X1: reconciling twice with the same snapshot leaves the entity where
    the first reconciliation left it. *)
Theorem reconcile_idempotent :
  forall (new_data : list TrackerDevice) (s : t),
    state (_update_from_latest_data new_data
             (state (_update_from_latest_data new_data s)))
    = state (_update_from_latest_data new_data s).
Proof.
  intros new_data s.
  rewrite !reconcile_state.
  destruct (first_with (uuid (_device s)) new_data) as [m | ] eqn:Hfind.
  - destruct (first_with_uuid _ _ _ Hfind) as [Hm _].
    cbn [_device holding]. rewrite Hm, Hfind.
    reflexivity.
  - now rewrite Hfind.
Qed.

(** X2: when a snapshot contains the entity's uuid, what an earlier
    snapshot did to the entity is forgotten: reconciling with [older] and
    then [newer] gives the state that [newer] alone gives. *)
Theorem reconcile_last_snapshot_wins :
  forall (older newer : list TrackerDevice) (s : t) (r : TrackerDevice),
    In r newer -> uuid r = uuid (_device s) ->
    state (_update_from_latest_data newer
             (state (_update_from_latest_data older s)))
    = state (_update_from_latest_data newer s).
Proof.
  intros older newer s r Hin Hr.
  destruct (first_with_found _ _ _ Hin Hr) as [m Hnew].
  rewrite (reconcile_state newer s), Hnew.
  rewrite (reconcile_state older s).
  destruct (first_with (uuid (_device s)) older) as [m0 | ] eqn:Hold.
  - destruct (first_with_uuid _ _ _ Hold) as [Hm0 _].
    rewrite reconcile_state. cbn [_device holding].
    rewrite Hm0, Hnew. reflexivity.
  - now rewrite reconcile_state, Hnew.
Qed.

Lemma reconcile_last_snapshot_wins_witness :
  state (_update_from_latest_data [Samples.b2_gps; Samples.a1_gps]
           (state (_update_from_latest_data [Samples.a1_bad]
                     Samples.a1_home)))
  = state (_update_from_latest_data [Samples.b2_gps; Samples.a1_gps]
             Samples.a1_home).
Proof.
  apply (reconcile_last_snapshot_wins
           [Samples.a1_bad] [Samples.b2_gps; Samples.a1_gps]
           Samples.a1_home Samples.a1_gps).
  - simpl. right. left. reflexivity.
  - reflexivity.
Defined.

(** X3: the order of the records in a snapshot does not matter as long as
    no uuid occurs twice in it: two snapshots that are permutations of
    each other reconcile an entity to the same state. *)
Theorem reconcile_order_irrelevant :
  forall (new_data new_data' : list TrackerDevice) (s : t),
    NoDup (map uuid new_data) -> Permutation new_data new_data' ->
    state (_update_from_latest_data new_data' s)
    = state (_update_from_latest_data new_data s).
Proof.
  intros new_data new_data' s Hnd Hperm.
  rewrite !reconcile_state.
  now rewrite (first_with_permutation _ _ _ Hnd Hperm).
Qed.

Lemma reconcile_order_irrelevant_witness :
  state (_update_from_latest_data [Samples.a1_gps; Samples.b2_gps]
           Samples.a1_home)
  = state (_update_from_latest_data [Samples.b2_gps; Samples.a1_gps]
             Samples.a1_home).
Proof.
  apply (reconcile_order_irrelevant
           [Samples.b2_gps; Samples.a1_gps]
           [Samples.a1_gps; Samples.b2_gps] Samples.a1_home).
  - simpl. constructor.
    + intros [H | []]. discriminate H.
    + constructor; [ intros [] | constructor ].
  - apply perm_swap.
Defined.

(** X4: the records of other trackers have no influence: dropping from the
    snapshot every record with another uuid changes neither the result of
    reconciliation nor the state it leaves. *)
Theorem reconcile_ignores_other_trackers :
  forall (new_data : list TrackerDevice) (s : t),
    let own :=
      filter (fun x => (uuid x =? uuid (_device s))%string) new_data in
    state (_update_from_latest_data own s)
    = state (_update_from_latest_data new_data s)
    /\ result (_update_from_latest_data own s)
       = result (_update_from_latest_data new_data s).
Proof.
  intros new_data s own. subst own.
  rewrite !reconcile_state, !reconcile_result.
  now rewrite first_with_filter.
Qed.

(** X5: an entity created from a record of a snapshot without repeated
    uuids is left as it is when reconciled with that same snapshot. *)
Theorem reconcile_fresh_entity_with_own_snapshot :
  forall (devices : list TrackerDevice) (device : TrackerDevice),
    NoDup (map uuid devices) -> In device devices ->
    state (_update_from_latest_data devices (__init__ device))
    = __init__ device.
Proof.
  intros devices device Hnd Hin.
  rewrite reconcile_state. cbn [_device __init__].
  now rewrite (first_with_unique _ _ _ Hnd Hin eq_refl).
Qed.

Lemma reconcile_fresh_entity_with_own_snapshot_witness :
  state (_update_from_latest_data [Samples.a1_gps; Samples.b2_gps]
           (__init__ Samples.b2_gps))
  = __init__ Samples.b2_gps.
Proof.
  apply (reconcile_fresh_entity_with_own_snapshot
           [Samples.a1_gps; Samples.b2_gps] Samples.b2_gps).
  - simpl. constructor.
    + intros [H | []]. discriminate H.
    + constructor; [ intros [] | constructor ].
  - simpl. right. left. reflexivity.
Defined.

(** With a repeated uuid the entity made from the second record takes the
    first record at its first reconciliation. *)
Example fresh_entity_of_duplicate_takes_first :
  state (_update_from_latest_data [Samples.a1_gps; Samples.a1_wifi]
           (__init__ Samples.a1_wifi))
  = __init__ Samples.a1_wifi -> False.
Proof. discriminate. Qed.

End ReconciliationAlgebra.

(** ** The entity between broadcasts *)

Section EntityProperties.

Import One2TrackSensor.

Local Open Scope list_scope.

Variable PyFloat : Type.
Variable float : string -> option PyFloat.

Lemma async_schedule_update_ha_state_run :
  forall s : t,
    async_schedule_update_ha_state float s
    = {| result := state_write float (_device s); state := s; logged := [] |}.
Proof.
  intros s.
  unfold async_schedule_update_ha_state, state_write, bind.
  rewrite latitude_run. unfold py_float. cbn [result state logged].
  destruct (float (Client.latitude _)) as [la | ]; [ | reflexivity ].
  rewrite longitude_run. unfold py_float. cbn [result state logged].
  now destruct (float (Client.longitude _)) as [lo | ].
Qed.

Lemma _handle_coordinator_update_run :
  forall (new_data : list TrackerDevice) (s : t),
    _handle_coordinator_update float new_data s =
    {| result :=
         state_write float (_device (state (_update_from_latest_data new_data s)));
       state := state (_update_from_latest_data new_data s);
       logged := logged (_update_from_latest_data new_data s) |}.
Proof.
  intros new_data s.
  unfold _handle_coordinator_update.
  unfold bind at 1.
  rewrite reconcile_result. cbn [result state logged].
  unfold bind.
  rewrite async_schedule_update_ha_state_run. cbn [result state logged ret].
  destruct (state_write float _) as [[] | e]; cbn [result state logged];
    now rewrite !app_nil_r.
Qed.

(** The zone task assigns the zone cache and nothing else, and never
    raises. *)
Lemma zone_task_state :
  forall (lookup : PyFloat -> PyFloat -> Result (option Zone.t)) (s : t),
    state (_async_update_zone float lookup s) = in_zone s None
    /\ result (_async_update_zone float lookup s) = Ok tt.
Proof.
  intros lookup s.
  rewrite _async_update_zone_run. now split.
Qed.

Lemma location_name_depends :
  forall s s' : t,
    _device s = _device s' -> _zone_name s = _zone_name s' ->
    result (location_name s) = result (location_name s').
Proof.
  intros s s' Hdev Hzone.
  rewrite !location_name_run. cbn [result].
  now rewrite Hdev, Hzone.
Qed.

(** A broadcast, by what the state write makes of the reconciled record:
    the zone task runs only when the handler returned. *)
Lemma broadcast_run :
  forall (new_data : list TrackerDevice)
         (lookup : PyFloat -> PyFloat -> Result (option Zone.t)) (s : t),
    broadcast float new_data lookup s =
    let o := _update_from_latest_data new_data s in
    match state_write float (_device (state o)) with
    | Ok _ =>
        let o' := _async_update_zone float lookup (state o) in
        {| result := result o'; state := state o';
           logged := logged o ++ logged o' |}
    | Raise e =>
        {| result := Raise e; state := state o; logged := logged o |}
    end.
Proof.
  intros new_data lookup s.
  unfold broadcast, bind.
  rewrite _handle_coordinator_update_run. cbn [result state logged].
  now destruct (state_write float _) as [[] | e].
Qed.

(** X6: whatever broadcasts and zone tasks an entity has been through, it
    still answers to the uuid of the record it was created for: the
    [unique_id] it reports, the [_attr_unique_id] set at construction and
    the identifier in [device_info] all equal that uuid; [_attr_name] is
    still built from the name the tracker had at construction. *)
Theorem entity_identity_invariant :
  forall (device : TrackerDevice) (s : t),
    reachable float device s ->
    result (unique_id s) = Ok (uuid device)
    /\ _attr_unique_id s = uuid device
    /\ _attr_name s = ("one2track_" ++ Client.name device)%string
    /\ exists info,
         result (device_info s) = Ok info
         /\ DeviceInfo.identifiers info = [(Common.DOMAIN, uuid device)].
Proof.
  intros device s Hreach.
  assert (Hinv : uuid (_device s) = uuid device
                 /\ _attr_unique_id s = uuid device
                 /\ _attr_name s = ("one2track_" ++ Client.name device)%string).
  { induction Hreach as [ | s new_data Hreach IH | s lookup Hreach IH].
    - repeat split.
    - destruct IH as (Hdev & Hattr & Hname).
      rewrite _handle_coordinator_update_run. cbn [state].
      rewrite reconcile_state.
      destruct (first_with (uuid (_device s)) new_data) as [m | ] eqn:Hfind;
        [ | now repeat split ].
      apply first_with_uuid in Hfind. destruct Hfind as [Hm _].
      cbn [holding _device _attr_unique_id _attr_name].
      repeat split; congruence.
    - destruct IH as (Hdev & Hattr & Hname).
      destruct (zone_task_state lookup s) as (-> & _).
      now repeat split. }
  destruct Hinv as (Hdev & Hattr & Hname).
  split; [ | split; [ exact Hattr | split; [ exact Hname | ] ] ].
  - unfold unique_id, bind, get, ret. cbn [result state]. now rewrite Hdev.
  - eexists. split.
    + unfold device_info, unique_id, bind, get, ret. cbn [result state].
      reflexivity.
    + cbn [DeviceInfo.identifiers]. now rewrite Hdev.
Qed.

Lemma zone_task_overrides_cache_eq :
  forall (lookup : PyFloat -> PyFloat -> Result (option Zone.t)) (s : t)
         (stale : option string),
    _async_update_zone float lookup (in_zone s stale)
    = _async_update_zone float lookup s.
Proof.
  intros lookup s stale.
  rewrite !_async_update_zone_run. reflexivity.
Qed.

(** X7: a zone task leaves no trace of the zone name cached before it:
    started with any cached name, it ends with the same result, state and
    log records as when started with the cache empty. *)
Theorem zone_task_forgets_previous_cache :
  forall (lookup : PyFloat -> PyFloat -> Result (option Zone.t)) (s : t)
         (stale : option string),
    _async_update_zone float lookup (in_zone s stale)
    = _async_update_zone float lookup (in_zone s None).
Proof.
  intros lookup s stale.
  now rewrite !zone_task_overrides_cache_eq.
Qed.

(** X8: a coordinate that [float] rejects ends the zone task before the
    lookup is consulted: whatever the lookup would have answered and
    whatever zone name was cached, the task returns normally, the zone
    cache read afterwards is [None], the cached record is the same, and
    the one record logged is the [ValueError].  The latitude is read
    first, so its error is the one reported; the longitude's is reported
    when the latitude is readable. *)
Theorem zone_task_unreadable_coordinate :
  forall (lookup : PyFloat -> PyFloat -> Result (option Zone.t)) (s : t),
    let lat := Client.latitude (last_location (_device s)) in
    let lon := Client.longitude (last_location (_device s)) in
    let o := _async_update_zone float lookup s in
    (float lat = None ->
     result o = Ok tt
     /\ _zone_name (state o) = None
     /\ _device (state o) = _device s
     /\ logged o = [(ERROR, MsgCannotGetZone (ValueError lat))])
    /\ (forall la, float lat = Some la -> float lon = None ->
        result o = Ok tt
        /\ _zone_name (state o) = None
        /\ _device (state o) = _device s
        /\ logged o = [(ERROR, MsgCannotGetZone (ValueError lon))]).
Proof.
  intros lookup s lat lon o. subst o.
  rewrite _async_update_zone_run. cbv zeta. fold lat. fold lon.
  cbn [result state logged in_zone _zone_name _device].
  split.
  - intros Hlat. rewrite Hlat. now repeat split.
  - intros la Hlat Hlon. rewrite Hlat, Hlon. now repeat split.
Qed.

(** X9: the handler does not touch the zone cache, so between its return
    and the end of the zone task the label is still the zone name cached
    for the previous position, whenever that name is not empty and the
    record now held is not on WIFI. *)
Theorem label_is_stale_until_zone_task :
  forall (new_data : list TrackerDevice) (s : t) (zone_name : string),
    _zone_name s = Some zone_name -> zone_name <> "" ->
    location_type
      (last_location
         (_device (state (_handle_coordinator_update float new_data s))))
    <> "WIFI" ->
    result (location_name
              (state (_handle_coordinator_update float new_data s)))
    = Ok zone_name.
Proof.
  intros new_data s z Hz Hne.
  rewrite _handle_coordinator_update_run. cbn [state].
  rewrite reconcile_state.
  intros Hnot.
  rewrite location_name_run. cbn [result].
  apply String.eqb_neq in Hnot. rewrite Hnot.
  assert (Hcache :
            _zone_name
              match first_with (uuid (_device s)) new_data with
              | Some me => holding s me
              | None => s
              end = Some z).
  { now destruct (first_with (uuid (_device s)) new_data). }
  rewrite Hcache. cbn [zone_name_truthy].
  apply String.eqb_neq in Hne. now rewrite Hne.
Qed.

(** X10: the label is never the empty string when the cached record has
    an address: an empty zone name is passed over for the address. *)
Theorem label_not_empty :
  forall s : t,
    address (last_location (_device s)) <> "" ->
    result (location_name s) <> Ok "".
Proof.
  intros s Haddr.
  rewrite location_name_run. cbn [result].
  destruct (location_type (last_location (_device s)) =? "WIFI")%string;
    [ discriminate | ].
  destruct (_zone_name s) as [z | ]; cbn [zone_name_truthy].
  - destruct (z =? "")%string eqn:Hz; cbn [negb].
    + congruence.
    + apply String.eqb_neq in Hz. congruence.
  - congruence.
Qed.


(** X12: after a broadcast that returned normally and whose snapshot
    contains the entity's uuid, nothing of the entity's past shows in what
    it presents: another entity with that uuid, whatever record and zone
    name it held before, goes through the same broadcast normally as well
    and ends with the same record, the same zone cache, the same label,
    name and battery level, and the same attribute bag. *)
Theorem broadcast_erases_history :
  forall (new_data : list TrackerDevice)
         (lookup : PyFloat -> PyFloat -> Result (option Zone.t))
         (s s' : t) (r : TrackerDevice),
    In r new_data -> uuid r = uuid (_device s) ->
    uuid (_device s') = uuid (_device s) ->
    result (broadcast float new_data lookup s) = Ok tt ->
    let after := state (broadcast float new_data lookup s) in
    let after' := state (broadcast float new_data lookup s') in
    result (broadcast float new_data lookup s') = Ok tt
    /\ _device after = _device after'
    /\ _zone_name after = _zone_name after'
    /\ result (location_name after) = result (location_name after')
    /\ result (name after) = result (name after')
    /\ result (battery_level after) = result (battery_level after')
    /\ result (extra_state_attributes after)
       = result (extra_state_attributes after').
Proof.
  intros new_data lookup s s' r Hin Hr Hsame Hok after after'.
  subst after after'.
  revert Hok.
  rewrite !broadcast_run. cbv zeta.
  rewrite !reconcile_state, Hsame.
  destruct (first_with_found _ _ _ Hin Hr) as [m ->].
  cbn [holding _device].
  destruct (state_write float m) as [[] | e];
    cbn [result state logged]; [ intros _ | discriminate ].
  destruct (zone_task_state lookup (holding s m)) as (-> & _).
  destruct (zone_task_state lookup (holding s' m)) as (-> & ->).
  split; [ reflexivity | ].
  split; [ reflexivity | ].
  split; [ reflexivity | ].
  split; [ now apply location_name_depends | ].
  repeat split.
Qed.

End EntityProperties.

Section EntityWitnesses.

Import One2TrackSensor.

Local Open Scope list_scope.

Lemma entity_identity_invariant_witness :
  let s :=
    state (_async_update_zone Samples.decimal_float Samples.lookup
             (state (_handle_coordinator_update Samples.decimal_float
                       [Samples.a1_renamed; Samples.b2_gps]
                       (__init__ Samples.a1_gps)))) in
  result (unique_id s) = Ok (uuid Samples.a1_gps)
  /\ _attr_unique_id s = uuid Samples.a1_gps
  /\ _attr_name s = ("one2track_" ++ Client.name Samples.a1_gps)%string
  /\ exists info,
       result (device_info s) = Ok info
       /\ DeviceInfo.identifiers info
          = [(Common.DOMAIN, uuid Samples.a1_gps)].
Proof.
  apply (entity_identity_invariant
           Samples.decimal Samples.decimal_float Samples.a1_gps).
  apply reach_zone. apply reach_handler. apply reach_init.
Defined.

(** The tracker was renamed on the account: the entity reports the new
    name, while the name attribute set at construction keeps the old. *)
Example renamed_tracker_keeps_attr_name :
  let s := state (_handle_coordinator_update Samples.decimal_float
                    [Samples.a1_renamed] (__init__ Samples.a1_gps)) in
  result (name s) = Ok "Annabel" /\ _attr_name s = "one2track_Anna".
Proof. split; reflexivity. Qed.

Lemma zone_task_unreadable_coordinate_witness :
  (result (_async_update_zone Samples.decimal_float Samples.lookup
             Samples.a1_broken) = Ok tt
   /\ _zone_name (state (_async_update_zone Samples.decimal_float
                           Samples.lookup Samples.a1_broken)) = None
   /\ _device (state (_async_update_zone Samples.decimal_float
                        Samples.lookup Samples.a1_broken))
      = _device Samples.a1_broken
   /\ logged (_async_update_zone Samples.decimal_float Samples.lookup
                Samples.a1_broken)
      = [(ERROR, MsgCannotGetZone (ValueError "n/a"))])
  /\
  (result (_async_update_zone Samples.decimal_float Samples.lookup
             (in_zone (__init__ Samples.a1_no_lon) (Some "Office"))) = Ok tt
   /\ _zone_name (state (_async_update_zone Samples.decimal_float
                           Samples.lookup
                           (in_zone (__init__ Samples.a1_no_lon)
                              (Some "Office")))) = None
   /\ _device (state (_async_update_zone Samples.decimal_float
                        Samples.lookup
                        (in_zone (__init__ Samples.a1_no_lon)
                           (Some "Office"))))
      = _device (in_zone (__init__ Samples.a1_no_lon) (Some "Office"))
   /\ logged (_async_update_zone Samples.decimal_float Samples.lookup
                (in_zone (__init__ Samples.a1_no_lon) (Some "Office")))
      = [(ERROR, MsgCannotGetZone (ValueError ""))]).
Proof.
  pose proof (zone_task_unreadable_coordinate
                Samples.decimal Samples.decimal_float
                Samples.lookup Samples.a1_broken) as Hlat.
  pose proof (zone_task_unreadable_coordinate
                Samples.decimal Samples.decimal_float
                Samples.lookup
                (in_zone (__init__ Samples.a1_no_lon) (Some "Office")))
    as Hlon.
  cbv zeta in Hlat, Hlon.
  split.
  - apply (proj1 Hlat). reflexivity.
  - apply (proj2 Hlon (5240, 2%nat)); reflexivity.
Defined.

Lemma label_is_stale_until_zone_task_witness :
  result (location_name
            (state (_handle_coordinator_update Samples.decimal_float
                      [Samples.b2_gps] Samples.a1_at_office)))
  = Ok "Office"
  /\
  result (location_name
            (state (_handle_coordinator_update Samples.decimal_float
                      [Samples.a1_renamed] Samples.a1_at_office)))
  = Ok "Office".
Proof.
  split.
  - apply (label_is_stale_until_zone_task
             Samples.decimal Samples.decimal_float
             [Samples.b2_gps] Samples.a1_at_office "Office").
    + reflexivity.
    + discriminate.
    + discriminate.
  - apply (label_is_stale_until_zone_task
             Samples.decimal Samples.decimal_float
             [Samples.a1_renamed] Samples.a1_at_office "Office").
    + reflexivity.
    + discriminate.
    + discriminate.
Defined.

Lemma label_not_empty_witness :
  result (location_name Samples.a1_unnamed_zone) <> Ok "".
Proof.
  apply (label_not_empty Samples.a1_unnamed_zone).
  discriminate.
Defined.


Lemma broadcast_erases_history_witness :
  let after :=
    state (broadcast Samples.decimal_float
             [Samples.b2_gps; Samples.a1_gps] Samples.lookup
             Samples.a1_home) in
  let after' :=
    state (broadcast Samples.decimal_float
             [Samples.b2_gps; Samples.a1_gps] Samples.lookup
             Samples.a1_broken) in
  result (broadcast Samples.decimal_float
            [Samples.b2_gps; Samples.a1_gps] Samples.lookup
            Samples.a1_broken) = Ok tt
  /\ _device after = _device after'
  /\ _zone_name after = _zone_name after'
  /\ result (location_name after) = result (location_name after')
  /\ result (name after) = result (name after')
  /\ result (battery_level after) = result (battery_level after')
  /\ result (extra_state_attributes after)
     = result (extra_state_attributes after').
Proof.
  apply (broadcast_erases_history
           Samples.decimal Samples.decimal_float
           [Samples.b2_gps; Samples.a1_gps] Samples.lookup
           Samples.a1_home Samples.a1_broken Samples.a1_gps).
  - simpl. right. left. reflexivity.
  - reflexivity.
  - reflexivity.
  - reflexivity.
Defined.

(** Without a readable coordinate the handler raises before it creates
    the zone task, and the two entities keep their different caches. *)
Example broadcast_keeps_caches_when_handler_raises :
  _zone_name (state (broadcast Samples.decimal_float [Samples.a1_bad]
                       Samples.lookup Samples.a1_at_office))
  = Some "Office"
  /\ _zone_name (state (broadcast Samples.decimal_float [Samples.a1_bad]
                          Samples.lookup Samples.a1_fresh))
     = None.
Proof. split; reflexivity. Qed.

End EntityWitnesses.

(** ** Successive refresh cycles *)

Section RefreshProperties.

Import GpsCoordinator.

Local Open Scope list_scope.

Lemma cycles_run_cons :
  forall (aw : awaitable (list TrackerDevice)) (now : datetime)
         (rest : list (awaitable (list TrackerDevice) * datetime)) (c : t),
    Refresh.cycles_run ((aw, now) :: rest) c
    = Refresh.cycles_run rest (state (_async_update_data aw now c)).
Proof. reflexivity. Qed.

(** X13: over any sequence of refresh cycles, the last-update time the
    coordinator ends with is the clock reading of the last cycle whose
    fetch came back in time, and the time it started with when no cycle
    succeeded; failed cycles never move it.  The first-boot flag is as it
    was at the start. *)
Theorem last_update_is_last_success :
  forall (cycles : list (awaitable (list TrackerDevice) * datetime)) (c : t),
    last_update (Refresh.cycles_run cycles c)
    = match Refresh.last_success cycles with
      | Some at_time => Some at_time
      | None => last_update c
      end
    /\ first_boot (Refresh.cycles_run cycles c) = first_boot c.
Proof.
  induction cycles as [ | [aw now] rest IH]; intros c.
  - repeat split.
  - rewrite cycles_run_cons.
    destruct (IH (state (_async_update_data aw now c))) as (Hlast & Hboot).
    rewrite Hlast, Hboot.
    rewrite _async_update_data_run.
    cbn [Refresh.last_success].
    destruct (Refresh.last_success rest) as [later | ].
    + now destruct (timeout 300 aw).
    + now destruct (timeout 300 aw).
Qed.

End RefreshProperties.

(** ** Setting the platform up *)

Section SetupProperties.

Import One2TrackSensor.

Local Open Scope list_scope.

Lemma add_devices :
  forall (devices : list TrackerDevice)
         (acc : list t * list (level * Platform.setup_msg)),
    fold_left Platform.add_device devices acc
    = (fst acc ++ map __init__ devices,
       snd acc ++ map (fun d => (DEBUG, Platform.MsgAdding d)) devices).
Proof.
  induction devices as [ | d devices IH]; intros [ents lg].
  - cbn. now rewrite !app_nil_r.
  - cbn [fold_left]. rewrite IH.
    unfold Platform.add_device. cbn [fst snd map].
    now rewrite <- !app_assoc.
Qed.

(** X14: when the fetch succeeds, [async_setup_entry] hands the host one
    entity per fetched record, in the order of the fetch, each created
    from its record with an empty zone cache, all behind one coordinator
    built with the first-boot flag set; an account without trackers gives
    no entity.  When the fetch raises, the exception leaves
    [async_setup_entry] as it is (it is not turned into [UpdateFailed]),
    no entity is added and no coordinator is built. *)
Theorem setup_adds_one_entity_per_device :
  (forall devices : list TrackerDevice,
     let run := Platform.async_setup_entry (Ok devices) in
     Platform.returned run = Ok tt
     /\ Platform.added run = map __init__ devices
     /\ map _attr_unique_id (Platform.added run) = map uuid devices
     /\ Forall (fun e => _zone_name e = None) (Platform.added run)
     /\ Platform.coordinator run = Some (GpsCoordinator.__init__ true)
     /\ Platform.setup_logged run
        = [(DEBUG, Platform.MsgSetupEntry);
           (INFO, Platform.MsgAddingFound (length devices))]
          ++ map (fun d => (DEBUG, Platform.MsgAdding d)) devices
          ++ [(DEBUG, Platform.MsgDoneAdding)])
  /\ (forall e : exn,
        let run := Platform.async_setup_entry (Raise e) in
        Platform.returned run = Raise e
        /\ Platform.added run = []
        /\ Platform.coordinator run = None).
Proof.
  split.
  - intros devices run. subst run.
    unfold Platform.async_setup_entry.
    cbn [Platform.returned Platform.added Platform.coordinator
         Platform.setup_logged].
    rewrite add_devices. cbn [fst snd app].
    split; [ reflexivity | split; [ reflexivity | split; [ | split ] ] ].
    + rewrite map_map. reflexivity.
    + apply Forall_forall. intros e He.
      apply in_map_iff in He. destruct He as (d & <- & _). reflexivity.
    + split; reflexivity.
  - intros e run. subst run. repeat split.
Qed.

End SetupProperties.

(** ** The views of an entity *)

Section ViewProperties.

Import One2TrackSensor.

Local Open Scope list_scope.

(** X15: the reads of an entity agree with each other: the attribute bag
    has sixteen distinct keys; its "uuid" is what [unique_id] returns and
    what [device_info] carries as identifier under the domain; its "name"
    and "serial_number" are those of [device_info], and the name is what
    [name] returns; none of these reads raises or changes the entity. *)
Theorem views_agree :
  forall s : t,
    exists (bag : list (string * attr)) (info : DeviceInfo.t)
           (uid nm : string),
      extra_state_attributes s
      = {| result := Ok bag; state := s; logged := [] |}
      /\ device_info s = {| result := Ok info; state := s; logged := [] |}
      /\ unique_id s = {| result := Ok uid; state := s; logged := [] |}
      /\ name s = {| result := Ok nm; state := s; logged := [] |}
      /\ length bag = 16%nat
      /\ NoDup (map fst bag)
      /\ entry "uuid" bag = Some (AStr uid)
      /\ DeviceInfo.identifiers info = [(Common.DOMAIN, uid)]
      /\ entry "name" bag = Some (AStr nm)
      /\ DeviceInfo.name info = nm
      /\ entry "serial_number" bag
         = Some (AStr (DeviceInfo.serial_number info)).
Proof.
  intros s.
  do 4 eexists.
  split; [ reflexivity | ].
  split; [ reflexivity | ].
  split; [ reflexivity | ].
  split; [ reflexivity | ].
  split; [ reflexivity | ].
  split; [ | repeat split ].
  cbn [map fst].
  repeat (constructor;
          [ cbn [In]; intros Hin;
            repeat (destruct Hin as [Hin | Hin]; [ discriminate Hin | ]);
            exact Hin
          | ]).
  constructor.
Qed.

End ViewProperties.

Section LabelWitnesses.

Import One2TrackSensor.

Lemma location_name_uses_zone_witness :
  location_name Samples.a1_at_office
  = {| result := Ok "Office"; state := Samples.a1_at_office; logged := [] |}.
Proof.
  apply (location_name_uses_zone Samples.a1_at_office "Office").
  - discriminate.
  - reflexivity.
  - discriminate.
Defined.

End LabelWitnesses.
